(** * cpp_config: generation of [.vscode/c_cpp_properties.json]

    A shallow embedding of [src/cpp_config/cpp_config.py]: the validating
    builder [Cpp_config], the preset builder [Cpp_config_auto], the two
    module-level constants [estandar_1] and [pybind_2], and the part of the
    Python runtime they call ([os.getcwd], [os.makedirs], [open], [json.dump]).

    Python values are modelled as the code has them: a [str] is a sequence of
    code points, a [dict] literal is an association list in insertion order
    (the order [json.dump] writes the keys in), exceptions are values of an
    error type, and the methods that touch the file system are computations
    in a state-and-exception monad over a finite map from paths to nodes. *)

From Stdlib Require Import ZArith NArith List String Ascii DecimalString Lia.
From stdpp Require Import base option list gmap.

Import ListNotations.
Local Open Scope list_scope.

(** ** Python strings *)

(** A Python [str]: the sequence of its code points. *)
Definition pystr : Type := list N.

(** A string literal of the source (all of them are ASCII). *)
Definition py (s : string) : pystr :=
  List.map N_of_ascii (list_ascii_of_string s).

(** Truth value of an optional string field: [None] and [""] are falsy. *)
Definition truthy (o : option pystr) : bool :=
  match o with
  | None => false
  | Some [] => false
  | Some (_ :: _) => true
  end.

(** ** Python values that reach [json.dump] *)

#[warnings="-register-all"]
Inductive pyval : Type :=
| PNone
| PStr (s : pystr)
| PInt (z : Z)
| PList (items : list pyval)
| PDict (entries : list (pystr * pyval)).

(** [d[k]] on a dict, [None] standing for [KeyError]/[TypeError]. *)
Fixpoint assoc_get (k : pystr) (entries : list (pystr * pyval)) : option pyval :=
  match entries with
  | [] => None
  | (k', v) :: rest => if decide (k = k') then Some v else assoc_get k rest
  end.

Definition getitem (k : string) (v : pyval) : option pyval :=
  match v with
  | PDict entries => assoc_get (py k) entries
  | _ => None
  end.

(** [l[i]] on a list. *)
Definition getindex (i : nat) (v : pyval) : option pyval :=
  match v with
  | PList items => nth_error items i
  | _ => None
  end.

(** [cfg["configurations"][0][k]]: a field of the single compiler profile. *)
Definition profile_field (k : string) (cfg : pyval) : option pyval :=
  match getitem "configurations" cfg with
  | Some confs =>
      match getindex 0 confs with
      | Some profile => getitem k profile
      | None => None
      end
  | None => None
  end.

(** ** Exceptions *)

Inductive os_error : Type :=
| FileExistsError
| FileNotFoundError
| NotADirectoryError
| IsADirectoryError
| PermissionError.

Inductive exn : Type :=
| ValueError (msg : pystr)
| OSError (e : os_error).

(** ** [json.dump(obj, f, indent=n)]

    The text Python's [json] module produces for the values above with its
    defaults ([ensure_ascii=True], item separator [","], key separator
    [": "]) and a non-negative [indent]. *)

Definition hexdigit (d : N) : N :=
  if (d <? 10)%N then (48 + d)%N else (87 + d)%N.

Definition quote : N := 34%N.
Definition backslash : N := 92%N.

(** A backslash, the letter u and the four lower-case hexadecimal digits of
    [n], as the format [{0:04x}] prints them. *)
Definition u_escape (n : N) : pystr :=
  [backslash; 117; hexdigit (n / 4096 mod 16); hexdigit (n / 256 mod 16);
   hexdigit (n / 16 mod 16); hexdigit (n mod 16)]%N.

(** The replacement of one code point in [encode_basestring_ascii]: the
    short escapes of the quote, the backslash and the control characters
    n, r, t, b, f; printable ASCII unchanged; everything else as a
    u-escape, beyond the basic plane as a surrogate pair. *)
Definition escape_char (c : N) : pystr :=
  if (c =? quote)%N then [backslash; quote]
  else if (c =? backslash)%N then [backslash; backslash]
  else if (c =? 10)%N then [backslash; 110%N]
  else if (c =? 13)%N then [backslash; 114%N]
  else if (c =? 9)%N then [backslash; 116%N]
  else if (c =? 8)%N then [backslash; 98%N]
  else if (c =? 12)%N then [backslash; 102%N]
  else if ((32 <=? c) && (c <=? 126))%N then [c]
  else if (c <? 65536)%N then u_escape c
  else
    let n := (c - 65536)%N in
    u_escape (N.lor 55296 (N.land (N.shiftr n 10) 1023))
      ++ u_escape (N.lor 56320 (N.land n 1023)).

Definition encode_basestring_ascii (s : pystr) : pystr :=
  [quote] ++ flat_map escape_char s ++ [quote].

(** [int.__repr__] *)
Definition int_repr (z : Z) : pystr :=
  py (NilZero.string_of_int (Z.to_int z)).

(** A line break followed by the indentation of nesting depth [level]. *)
Definition newline_indent (indent level : nat) : pystr :=
  10%N :: repeat 32%N (indent * level).

Section Dumps.
Variable indent : nat.

Fixpoint dumps_at (level : nat) (v : pyval) : pystr :=
  match v with
  | PNone => py "null"
  | PStr s => encode_basestring_ascii s
  | PInt z => int_repr z
  | PList [] => py "[]"
  | PList (x :: xs) =>
      py "[" ++ newline_indent indent (S level) ++ dumps_at (S level) x
      ++ (fix items (l : list pyval) : pystr :=
            match l with
            | [] => []
            | y :: l' =>
                py "," ++ newline_indent indent (S level)
                ++ dumps_at (S level) y ++ items l'
            end) xs
      ++ newline_indent indent level ++ py "]"
  | PDict [] => py "{}"
  | PDict ((k, x) :: kxs) =>
      py "{" ++ newline_indent indent (S level)
      ++ encode_basestring_ascii k ++ py ": " ++ dumps_at (S level) x
      ++ (fix entries (l : list (pystr * pyval)) : pystr :=
            match l with
            | [] => []
            | (k', y) :: l' =>
                py "," ++ newline_indent indent (S level)
                ++ encode_basestring_ascii k' ++ py ": "
                ++ dumps_at (S level) y ++ entries l'
            end) kxs
      ++ newline_indent indent level ++ py "}"
  end.

Definition dumps (v : pyval) : pystr := dumps_at 0 v.
End Dumps.

(** ** The file system and the working directory

    A path is the string the program hands to the operating system; the map
    records what each such path names. A regular file carries its text and
    whether it may be written.

    The map is an abstraction with a stated scope. It records the argument
    of [os.makedirs] but not the ancestors created on the way to it, it
    keeps two spellings of one path apart, and it has no path that the
    operating system refuses. It is exact at the two paths of a call once
    the subdirectory exists. The properties below are therefore stated
    about runs that returned or raised a given error, or about states that
    fix what the subdirectory path and the output path name, and they
    speak of those two paths only. *)

Inductive node : Type :=
| Dir
| File (writable : bool) (content : pystr).

Record world : Type := World {
  files : gmap pystr node;
  cwd : pystr
}.

Definition set_files (f : gmap pystr node → gmap pystr node) (w : world) : world :=
  {| files := f (files w); cwd := cwd w |}.

(** Computations that read and change the world and may raise. *)
Definition M (A : Type) : Type := world → (exn + A) * world.

#[export] Instance M_ret : MRet M := λ A x w, (inr x, w).
#[export] Instance M_bind : MBind M := λ A B k m w,
  match m w with
  | (inr x, w') => k x w'
  | (inl e, w') => (inl e, w')
  end.

(** Evaluation of a call that returns or raises without touching the world. *)
Definition eval {A : Type} (r : exn + A) : M A := λ w, (r, w).

Definition slash : N := 47%N.

(** The part of a path before its last slash. *)
Fixpoint dirname (p : pystr) : pystr :=
  match p with
  | [] => []
  | c :: q => if existsb (N.eqb slash) q then c :: dirname q else []
  end.

Definition getcwd : M pystr := λ w, (inr (cwd w), w).

(** [os.makedirs(name, exist_ok=True)] *)
Definition makedirs_exist_ok (name : pystr) : M unit := λ w,
  match files w !! name with
  | Some Dir => (inr (), w)
  | Some (File _ _) => (inl (OSError FileExistsError), w)
  | None => (inr (), set_files (insert name Dir) w)
  end.

(** [open(name, "w")]: the file is created or truncated at once. The
    handle returned is the path. *)
Definition open_w (name : pystr) : M pystr := λ w,
  match files w !! name with
  | Some Dir => (inl (OSError IsADirectoryError), w)
  | Some (File false _) => (inl (OSError PermissionError), w)
  | Some (File true _) => (inr name, set_files (insert name (File true [])) w)
  | None =>
      match files w !! dirname name with
      | Some Dir => (inr name, set_files (insert name (File true [])) w)
      | Some (File _ _) => (inl (OSError NotADirectoryError), w)
      | None => (inl (OSError FileNotFoundError), w)
      end
  end.

Definition append_text (text : pystr) (n : node) : node :=
  match n with
  | Dir => Dir
  | File wr content => File wr (content ++ text)
  end.

(** [f.write(text)] *)
Definition write (f : pystr) (text : pystr) : M unit := λ w,
  (inr (), set_files (alter (append_text text) f) w).

(** [with open(name, "w") as f: body]: leaving the block closes the file
    whether or not the body raised, and closing changes nothing here. *)
Definition with_open_w (name : pystr) (body : pystr → M unit) : M unit :=
  f ← open_w name; body f.

(** [json.dump(obj, f, indent=indent)] *)
Definition json_dump (obj : pyval) (f : pystr) (indent : nat) : M unit :=
  write f (dumps indent obj).

(** The two f-strings of the persistence methods. *)
Definition vscode_dir (ruta : pystr) : pystr := ruta ++ py "/.vscode".
Definition properties_file (ruta : pystr) : pystr :=
  ruta ++ py "/.vscode/c_cpp_properties.json".

(** [if ruta is None: ruta = os.getcwd()] *)
Definition ruta_or_cwd (ruta : option pystr) : M pystr :=
  match ruta with
  | None => getcwd
  | Some r => mret r
  end.

(** The wildcard placeholder that opens every [includePath]. *)
Definition wildcard : pystr := py "${workspaceFolder}/**".

(** ** The validating builder *)

Module Cpp_config.

(** The three attributes set by [__init__]. *)
Record t : Type := init {
  ruta_compilador : option pystr;
  python_dll : option pystr;
  pybind11_dll : option pystr
}.

(** An attribute as a value: a [str], or [None]. *)
Definition attr (o : option pystr) : pyval :=
  match o with
  | Some s => PStr s
  | None => PNone
  end.

Definition _build_config_estandar (self : t) : exn + pyval :=
  if negb (truthy (ruta_compilador self)) then
    inl (ValueError (py "ruta_compilador es requerido"))
  else
    inr (PDict [
      (py "configurations", PList [
        PDict [
          (py "name", PStr (py "MSVC"));
          (py "includePath", PList [
            PStr wildcard
          ]);
          (py "compilerPath", attr (ruta_compilador self));
          (py "cStandard", PStr (py "c17"));
          (py "cppStandard", PStr (py "c++20"));
          (py "intelliSenseMode", PStr (py "windows-msvc-x64"))
        ]
      ]);
      (py "version", PInt 4)
    ]).

Definition _build_config_pybind (self : t) : exn + pyval :=
  if negb (truthy (ruta_compilador self)) then
    inl (ValueError (py "ruta_compilador es requerido"))
  else if negb (truthy (python_dll self)) then
    inl (ValueError (py "python_dll es requerido"))
  else if negb (truthy (pybind11_dll self)) then
    inl (ValueError (py "pybind11_dll es requerido"))
  else
    inr (PDict [
      (py "configurations", PList [
        PDict [
          (py "name", PStr (py "MSVC"));
          (py "includePath", PList [
            PStr wildcard;
            attr (pybind11_dll self);
            attr (python_dll self)
          ]);
          (py "compilerPath", attr (ruta_compilador self));
          (py "cStandard", PStr (py "c17"));
          (py "cppStandard", PStr (py "c++20"));
          (py "intelliSenseMode", PStr (py "windows-msvc-x64"))
        ]
      ]);
      (py "version", PInt 4)
    ]).

Definition config_estandar (self : t) (ruta : option pystr) : M unit :=
  ruta ← ruta_or_cwd ruta;
  makedirs_exist_ok (vscode_dir ruta);;
  with_open_w (properties_file ruta) (λ f,
    obj ← eval (_build_config_estandar self);
    json_dump obj f 4).

Definition config_pybind (self : t) (ruta : option pystr) : M unit :=
  ruta ← ruta_or_cwd ruta;
  makedirs_exist_ok (vscode_dir ruta);;
  with_open_w (properties_file ruta) (λ f,
    obj ← eval (_build_config_pybind self);
    json_dump obj f 4).

End Cpp_config.

(** ** The module-level constants of the preset builder *)

Definition estandar_1 : pyval :=
  PDict [
    (py "configurations", PList [
      PDict [
        (py "name", PStr (py "MSVC"));
        (py "includePath", PList [
          PStr (py "${workspaceFolder}/**");
          PStr (py "C:/Users/SZ/AppData/Local/Programs/Python/Python312/Lib/site-packages/pybind11/include");
          PStr (py "C:/Users/SZ/AppData/Local/Programs/Python/Python312/include")
        ]);
        (py "compilerPath", PStr (py "C:/Program Files (x86)/Microsoft Visual Studio/2022/BuildTools/VC/Tools/MSVC/14.44.35207/bin/Hostx64/x64/cl.exe"));
        (py "cStandard", PStr (py "c17"));
        (py "cppStandard", PStr (py "c++20"));
        (py "intelliSenseMode", PStr (py "windows-msvc-x64"))
      ]
    ]);
    (py "version", PInt 4)
  ].

Definition pybind_2 : pyval :=
  PDict [
    (py "configurations", PList [
      PDict [
        (py "name", PStr (py "MSVC"));
        (py "includePath", PList [
          PStr (py "${workspaceFolder}/**");
          PStr (py "C:/Users/SZ/AppData/Local/Programs/Python/Python312/Lib/site-packages/pybind11/include");
          PStr (py "C:/Users/SZ/AppData/Local/Programs/Python/Python312/include")
        ]);
        (py "compilerPath", PStr (py "C:/Program Files (x86)/Microsoft Visual Studio/2022/BuildTools/VC/Tools/MSVC/14.44.35207/bin/Hostx64/x64/cl.exe"));
        (py "cStandard", PStr (py "c17"));
        (py "cppStandard", PStr (py "c++20"));
        (py "intelliSenseMode", PStr (py "windows-msvc-x64"))
      ]
    ]);
    (py "version", PInt 4)
  ].

(** ** The preset builder *)

Module Cpp_config_auto.

(** An instance has no attributes: [__init__] is [pass]. *)
Definition t : Type := unit.
Definition init : t := tt.

Definition config_estandar (self : t) (ruta : option pystr) : M unit :=
  ruta ← ruta_or_cwd ruta;
  makedirs_exist_ok (vscode_dir ruta);;
  with_open_w (properties_file ruta) (λ f,
    json_dump estandar_1 f 4).

Definition config_pybind (self : t) (ruta : option pystr) : M unit :=
  ruta ← ruta_or_cwd ruta;
  makedirs_exist_ok (vscode_dir ruta);;
  with_open_w (properties_file ruta) (λ f,
    json_dump pybind_2 f 4).

End Cpp_config_auto.


(** ** The four persistence operations, side by side *)

Inductive mode : Type := Plain | Extended.

Inductive builder : Type :=
| Validating (self : Cpp_config.t)
| Preset (self : Cpp_config_auto.t).

(** The record a persistence operation hands to [json.dump], or the
    exception its evaluation raises. *)
Definition record (b : builder) (m : mode) : exn + pyval :=
  match b, m with
  | Validating self, Plain => Cpp_config._build_config_estandar self
  | Validating self, Extended => Cpp_config._build_config_pybind self
  | Preset _, Plain => inr estandar_1
  | Preset _, Extended => inr pybind_2
  end.

Definition persist (b : builder) (m : mode) (ruta : option pystr) : M unit :=
  match b, m with
  | Validating self, Plain => Cpp_config.config_estandar self ruta
  | Validating self, Extended => Cpp_config.config_pybind self ruta
  | Preset self, Plain => Cpp_config_auto.config_estandar self ruta
  | Preset self, Extended => Cpp_config_auto.config_pybind self ruta
  end.

(** The directory a call targets: its argument, or the working directory. *)
Definition target (ruta : option pystr) (w : world) : pystr :=
  default (cwd w) ruta.

(** The common shape of the four methods. *)
Definition persist_with (obj : exn + pyval) (ruta : option pystr) : M unit :=
  ruta ← ruta_or_cwd ruta;
  makedirs_exist_ok (vscode_dir ruta);;
  with_open_w (properties_file ruta) (λ f,
    obj ← eval obj;
    json_dump obj f 4).

(** What [os.makedirs] and [open] need to find in order not to raise. *)
Definition dir_ready (σ : gmap pystr node) (d : pystr) : Prop :=
  σ !! d = None ∨ σ !! d = Some Dir.

Definition file_ready (σ : gmap pystr node) (p : pystr) : Prop :=
  σ !! p = None ∨ ∃ content, σ !! p = Some (File true content).

(** The text a call leaves in the file once [open] has succeeded. *)
Definition text_of (obj : exn + pyval) : pystr :=
  match obj with
  | inl _ => []
  | inr v => dumps 4 v
  end.

Definition outcome (obj : exn + pyval) : exn + unit :=
  match obj with
  | inl e => inl e
  | inr _ => inr ()
  end.

(** The fixed fields of a record. *)
Definition fixed_fields (cfg : pyval) : Prop :=
  profile_field "name" cfg = Some (PStr (py "MSVC"))
  ∧ profile_field "cStandard" cfg = Some (PStr (py "c17"))
  ∧ profile_field "cppStandard" cfg = Some (PStr (py "c++20"))
  ∧ profile_field "intelliSenseMode" cfg = Some (PStr (py "windows-msvc-x64"))
  ∧ getitem "version" cfg = Some (PInt 4).

(** The constant a mode of the preset builder serializes. *)
Definition preset_constant (m : mode) : pyval :=
  match m with
  | Plain => estandar_1
  | Extended => pybind_2
  end.

(** ** Two initial states for the examples *)

(** Nothing but a working directory. *)
Definition empty_root : world := {| files := ∅; cwd := py "/" |}.

(** A project whose configuration file already has some text. *)
Definition configured_project : world :=
  {| files := {[ py "/proj/.vscode" := Dir;
                 py "/proj/.vscode/c_cpp_properties.json" := File true (py "{}") ]};
     cwd := py "/proj" |}.

(** A project whose [.vscode] is a regular file. *)
Definition blocked_project : world :=
  {| files := {[ py "/proj/.vscode" := File true (py "notes") ]};
     cwd := py "/proj" |}.

(** A project whose configuration file may not be written. *)
Definition readonly_project : world :=
  {| files := {[ py "/proj/.vscode" := Dir;
                 py "/proj/.vscode/c_cpp_properties.json" := File false (py "{}") ]};
     cwd := py "/proj" |}.

(** ** The predefined paths

    The validating builder set up with the three paths that the docstring
    of [Cpp_config_auto] lists as predefined. *)
Definition predefined : Cpp_config.t :=
  Cpp_config.init
    (Some (py "C:/Program Files (x86)/Microsoft Visual Studio/2022/BuildTools/VC/Tools/MSVC/14.44.35207/bin/Hostx64/x64/cl.exe"))
    (Some (py "C:/Users/SZ/AppData/Local/Programs/Python/Python312/include"))
    (Some (py "C:/Users/SZ/AppData/Local/Programs/Python/Python312/Lib/site-packages/pybind11/include")).

(** ** Plain text

    A line break or a printable ASCII character. *)
Definition plain_ascii (c : N) : bool :=
  ((c =? 10) || ((32 <=? c) && (c <=? 126)))%N.

Definition ascii_text (s : pystr) : bool := forallb plain_ascii s.

(** A non-empty string value. *)
Definition nonempty_str (v : pyval) : Prop :=
  ∃ c s, v = PStr (c :: s).

(** * Properties *)

(** ** Paths *)

Lemma dirname_app_slash (d b : pystr) :
  existsb (N.eqb slash) b = false → dirname (d ++ slash :: b) = d.
Proof.
  intros Hb. induction d as [|c d IH]; simpl.
  - by rewrite Hb.
  - rewrite existsb_app. simpl. rewrite orb_true_r. by rewrite IH.
Qed.

Lemma properties_file_split (ruta : pystr) :
  properties_file ruta = vscode_dir ruta ++ slash :: py "c_cpp_properties.json".
Proof. unfold properties_file, vscode_dir. by rewrite <- app_assoc. Qed.

Lemma dirname_properties_file (ruta : pystr) :
  dirname (properties_file ruta) = vscode_dir ruta.
Proof. rewrite properties_file_split. by apply dirname_app_slash. Qed.

Lemma properties_file_ne_vscode_dir (ruta : pystr) :
  vscode_dir ruta ≠ properties_file ruta.
Proof.
  rewrite properties_file_split. intros H.
  apply (f_equal (@List.length N)) in H.
  rewrite length_app in H. simpl in H. lia.
Qed.

(** ** The methods follow one shape *)

Lemma persist_shape (b : builder) (m : mode) (ruta : option pystr) :
  persist b m ruta = persist_with (record b m) ruta.
Proof. by destruct b, m. Qed.

Lemma ruta_or_cwd_run (ruta : option pystr) (w : world) :
  ruta_or_cwd ruta w = (inr (target ruta w), w).
Proof. by destruct ruta. Qed.

(** ** Running a persistence method *)

Lemma open_w_ready (p : pystr) (w : world) :
  files w !! dirname p = Some Dir →
  file_ready (files w) p →
  open_w p w = (inr p, set_files (insert p (File true [])) w).
Proof.
  intros Hd [Hp | [content Hp]]; unfold open_w; rewrite Hp; [by rewrite Hd | done].
Qed.

Lemma open_w_not_ready (p : pystr) (w : world) :
  ¬ file_ready (files w) p → ∃ o, (open_w p w).1 = inl (OSError o).
Proof.
  intros Hn. unfold open_w.
  destruct (files w !! p) as [[|[|] content]|] eqn:Hp; simpl; eauto.
  - destruct Hn. right. eauto.
  - destruct Hn. by left.
Qed.

Lemma write_after_open (p text : pystr) (b : bool) (σ : gmap pystr node) (c : pystr) :
  write p text (World (<[p := File b []]> σ) c)
  = (inr (), World (<[p := File b text]> σ) c).
Proof. unfold write, set_files. simpl. by rewrite alter_insert_eq. Qed.

Lemma persist_with_ready (obj : exn + pyval) (ruta : option pystr) (w : world) :
  dir_ready (files w) (vscode_dir (target ruta w)) →
  file_ready (files w) (properties_file (target ruta w)) →
  persist_with obj ruta w
  = (outcome obj,
     {| files := <[properties_file (target ruta w) := File true (text_of obj)]>
                   (<[vscode_dir (target ruta w) := Dir]> (files w));
        cwd := cwd w |}).
Proof.
  intros Hd Hp. unfold persist_with, mbind, M_bind.
  rewrite ruta_or_cwd_run.
  set (r := target ruta w) in *.
  assert (Hmk : makedirs_exist_ok (vscode_dir r) w
                = (inr (), set_files (insert (vscode_dir r) Dir) w)).
  { unfold makedirs_exist_ok. destruct Hd as [Hd | Hd]; rewrite Hd; [done |].
    f_equal. destruct w as [σ c]. unfold set_files. simpl in *.
    by rewrite insert_id. }
  rewrite Hmk. unfold with_open_w, mbind, M_bind.
  rewrite open_w_ready.
  - destruct w as [σ c]. unfold set_files, eval, json_dump. simpl.
    destruct obj as [e | v]; simpl; [done |].
    by rewrite write_after_open.
  - simpl. rewrite dirname_properties_file. apply lookup_insert_eq.
  - unfold file_ready in *. simpl.
    rewrite lookup_insert_ne by apply properties_file_ne_vscode_dir. done.
Qed.

Lemma file_ready_or_not (σ : gmap pystr node) (p : pystr) :
  file_ready σ p ∨ ¬ file_ready σ p.
Proof.
  unfold file_ready. destruct (σ !! p) as [[|[|] content]|]; eauto.
  - right. intros [? | [? ?]]; congruence.
  - right. intros [? | [? ?]]; congruence.
Qed.

Lemma persist_with_cases (obj : exn + pyval) (ruta : option pystr) (w : world) :
  (∃ o, (persist_with obj ruta w).1 = inl (OSError o))
  ∨ (dir_ready (files w) (vscode_dir (target ruta w))
     ∧ file_ready (files w) (properties_file (target ruta w))).
Proof.
  destruct (file_ready_or_not (files w) (properties_file (target ruta w)))
    as [Hp | Hp].
  - destruct (files w !! vscode_dir (target ruta w)) as [[|wr content]|] eqn:Hd.
    + right. split; [by right | done].
    + left. exists FileExistsError.
      unfold persist_with, mbind, M_bind. rewrite ruta_or_cwd_run.
      unfold makedirs_exist_ok. by rewrite Hd.
    + right. split; [by left | done].
  - left. unfold persist_with, mbind, M_bind. rewrite ruta_or_cwd_run.
    set (r := target ruta w) in *.
    destruct (makedirs_exist_ok (vscode_dir r) w) as [[e | []] w1] eqn:Hmk.
    + unfold makedirs_exist_ok in Hmk.
      destruct (files w !! vscode_dir r) as [[|wr content]|];
        inversion Hmk; subst; simpl; eauto.
    + assert (Hp1 : ¬ file_ready (files w1) (properties_file r)).
      { unfold makedirs_exist_ok in Hmk.
        destruct (files w !! vscode_dir r) as [[|wr content]|];
          inversion Hmk; subst; [done |].
        unfold file_ready in *. simpl.
        rewrite lookup_insert_ne by apply properties_file_ne_vscode_dir. done. }
      destruct (open_w_not_ready _ _ Hp1) as [o Ho].
      unfold with_open_w, mbind, M_bind.
      destruct (open_w (properties_file r) w1) as [[e | f] w2];
        simpl in *; [| discriminate].
      exists o. by inversion Ho.
Qed.

(** A call that returns has written its record, and nothing but its record. *)
Lemma persist_returns (b : builder) (m : mode) (ruta : option pystr) (w w' : world) :
  persist b m ruta w = (inr (), w') →
  ∃ cfg, record b m = inr cfg
    ∧ w' = {| files := <[properties_file (target ruta w) := File true (dumps 4 cfg)]>
                         (<[vscode_dir (target ruta w) := Dir]> (files w));
              cwd := cwd w |}.
Proof.
  rewrite persist_shape. intros Hrun.
  destruct (persist_with_cases (record b m) ruta w) as [[o Ho] | [Hd Hp]].
  - rewrite Hrun in Ho. discriminate.
  - rewrite persist_with_ready in Hrun by done.
    destruct (record b m) as [e | cfg]; simpl in *; [discriminate |].
    exists cfg. split; [done |]. by inversion Hrun.
Qed.

Lemma persist_keeps_cwd (b : builder) (m : mode) (ruta : option pystr) (w w' : world) :
  persist b m ruta w = (inr (), w') → target ruta w' = target ruta w.
Proof.
  intros Hrun. apply persist_returns in Hrun as (cfg & _ & ->).
  by destruct ruta.
Qed.


(** ** The builders *)

(** C4: for every non-empty compiler path, whatever the two auxiliary
    fields hold, the plain build returns a record whose includePath is the
    single wildcard entry and whose compilerPath is the given path. *)
Theorem build_estandar_wildcard_only
    (compiler_path : pystr) (aux1 aux2 : option pystr) :
  compiler_path ≠ [] →
  ∃ cfg,
    Cpp_config._build_config_estandar
      (Cpp_config.init (Some compiler_path) aux1 aux2) = inr cfg
    ∧ profile_field "includePath" cfg = Some (PList [PStr wildcard])
    ∧ profile_field "compilerPath" cfg = Some (PStr compiler_path).
Proof.
  intros Hc. destruct compiler_path as [|c s]; [done |].
  eexists. split; [reflexivity |]. split; reflexivity.
Qed.

Lemma build_estandar_wildcard_only_witness :
  ∃ cfg,
    Cpp_config._build_config_estandar
      (Cpp_config.init (Some (py "/cl.exe")) None (Some (py "/pybind/include")))
    = inr cfg
    ∧ profile_field "includePath" cfg = Some (PList [PStr wildcard])
    ∧ profile_field "compilerPath" cfg = Some (PStr (py "/cl.exe")).
Proof. apply build_estandar_wildcard_only. discriminate. Defined.

(** C3: for every triple of non-empty strings, the extended build returns a
    record whose includePath is the wildcard, then the pybind11 include
    path (the second auxiliary path), then the Python include path (the
    first one), and whose compilerPath is the given path. *)
Theorem build_pybind_include_order (compiler_path aux1 aux2 : pystr) :
  compiler_path ≠ [] → aux1 ≠ [] → aux2 ≠ [] →
  ∃ cfg,
    Cpp_config._build_config_pybind
      (Cpp_config.init (Some compiler_path) (Some aux1) (Some aux2)) = inr cfg
    ∧ profile_field "includePath" cfg
      = Some (PList [PStr wildcard; PStr aux2; PStr aux1])
    ∧ profile_field "compilerPath" cfg = Some (PStr compiler_path).
Proof.
  intros Hc H1 H2.
  destruct compiler_path as [|c s]; [done |].
  destruct aux1 as [|c1 s1]; [done |].
  destruct aux2 as [|c2 s2]; [done |].
  eexists. split; [reflexivity |]. split; reflexivity.
Qed.

Lemma build_pybind_include_order_witness :
  ∃ cfg,
    Cpp_config._build_config_pybind
      (Cpp_config.init (Some (py "/cl.exe")) (Some (py "/py/include"))
         (Some (py "/pybind/include"))) = inr cfg
    ∧ profile_field "includePath" cfg
      = Some (PList [PStr (py "${workspaceFolder}/**");
                     PStr (py "/pybind/include"); PStr (py "/py/include")])
    ∧ profile_field "compilerPath" cfg = Some (PStr (py "/cl.exe")).
Proof. apply build_pybind_include_order; discriminate. Defined.

(** C5: the extended build checks the compiler path, then the Python
    include path, then the pybind11 include path, and raises the error of
    the first check that fails, whose message names that field; it returns
    a record only when all three checks pass. *)
Theorem build_pybind_check_order (self : Cpp_config.t) :
  (truthy (Cpp_config.ruta_compilador self) = false →
   Cpp_config._build_config_pybind self
   = inl (ValueError (py "ruta_compilador es requerido")))
  ∧ (truthy (Cpp_config.ruta_compilador self) = true →
     truthy (Cpp_config.python_dll self) = false →
     Cpp_config._build_config_pybind self
     = inl (ValueError (py "python_dll es requerido")))
  ∧ (truthy (Cpp_config.ruta_compilador self) = true →
     truthy (Cpp_config.python_dll self) = true →
     truthy (Cpp_config.pybind11_dll self) = false →
     Cpp_config._build_config_pybind self
     = inl (ValueError (py "pybind11_dll es requerido")))
  ∧ (truthy (Cpp_config.ruta_compilador self) = true →
     truthy (Cpp_config.python_dll self) = true →
     truthy (Cpp_config.pybind11_dll self) = true →
     ∃ cfg, Cpp_config._build_config_pybind self = inr cfg).
Proof.
  unfold Cpp_config._build_config_pybind.
  repeat split; intros; repeat match goal with H : truthy _ = _ |- _ => rewrite H; clear H end;
    simpl; eauto.
Qed.

Lemma build_pybind_check_order_witness :
  Cpp_config._build_config_pybind (Cpp_config.init None None None)
  = inl (ValueError (py "ruta_compilador es requerido"))
  ∧ Cpp_config._build_config_pybind
      (Cpp_config.init (Some (py "/cl.exe")) (Some []) None)
    = inl (ValueError (py "python_dll es requerido"))
  ∧ Cpp_config._build_config_pybind
      (Cpp_config.init (Some (py "/cl.exe")) (Some (py "/py/include")) (Some []))
    = inl (ValueError (py "pybind11_dll es requerido")).
Proof.
  split; [| split].
  - apply (build_pybind_check_order (Cpp_config.init None None None)).
    reflexivity.
  - apply (build_pybind_check_order
             (Cpp_config.init (Some (py "/cl.exe")) (Some []) None));
      reflexivity.
  - apply (build_pybind_check_order
             (Cpp_config.init (Some (py "/cl.exe")) (Some (py "/py/include"))
                (Some [])));
      reflexivity.
Defined.

(** C6: in the record of every build mode of either builder, name,
    cStandard, cppStandard, intelliSenseMode and version are the constants
    MSVC, c17, c++20, windows-msvc-x64 and 4. *)
Theorem fixed_fields_every_record (b : builder) (m : mode) (cfg : pyval) :
  record b m = inr cfg → fixed_fields cfg.
Proof.
  destruct b as [self | self], m; simpl;
    unfold Cpp_config._build_config_estandar, Cpp_config._build_config_pybind;
    repeat case_match; intros Hrec; inversion Hrec; subst;
    repeat split; reflexivity.
Qed.

Lemma fixed_fields_every_record_witness :
  fixed_fields
    (PDict [
      (py "configurations", PList [
        PDict [
          (py "name", PStr (py "MSVC"));
          (py "includePath", PList [PStr wildcard]);
          (py "compilerPath", PStr (py "/cl.exe"));
          (py "cStandard", PStr (py "c17"));
          (py "cppStandard", PStr (py "c++20"));
          (py "intelliSenseMode", PStr (py "windows-msvc-x64"))
        ]
      ]);
      (py "version", PInt 4)
    ]).
Proof.
  apply (fixed_fields_every_record
           (Validating (Cpp_config.init (Some (py "/cl.exe")) None None)) Plain).
  reflexivity.
Defined.

(** ** Persistence *)


(** The same failing call on an existing configuration empties it. *)
Example persist_invalid_truncates_file :
  let self := Cpp_config.init (Some []) None None in
  let res := Cpp_config.config_estandar self None configured_project in
  res.1 = inl (ValueError (py "ruta_compilador es requerido"))
  ∧ files configured_project !! py "/proj/.vscode/c_cpp_properties.json"
    = Some (File true (py "{}"))
  ∧ files res.2 !! py "/proj/.vscode/c_cpp_properties.json" = Some (File true []).
Proof. vm_compute. repeat split. Qed.



(** C7: after two calls against the same directory that both return, in any
    combination of builders and modes, the output file holds exactly the
    serialization of the second call's record. *)
Theorem persist_twice_overwrites
    (b1 b2 : builder) (m1 m2 : mode) (ruta : option pystr) (w w1 w2 : world) :
  persist b1 m1 ruta w = (inr (), w1) →
  persist b2 m2 ruta w1 = (inr (), w2) →
  ∃ cfg2, record b2 m2 = inr cfg2
    ∧ files w2 !! properties_file (target ruta w)
      = Some (File true (dumps 4 cfg2)).
Proof.
  intros Hfirst Hsecond.
  apply persist_keeps_cwd in Hfirst as Htarget.
  apply persist_returns in Hsecond as (cfg2 & Hrec & ->).
  exists cfg2. split; [done |]. simpl. rewrite Htarget.
  apply lookup_insert_eq.
Qed.

Lemma persist_twice_overwrites_witness :
  let first := Validating (Cpp_config.init (Some (py "/cl.exe"))
                             (Some (py "/py/include")) (Some (py "/pybind/include"))) in
  let second := Validating (Cpp_config.init (Some (py "/gcc")) None None) in
  let w1 := (persist first Extended None configured_project).2 in
  let w2 := (persist second Plain None w1).2 in
  ∃ cfg2, record second Plain = inr cfg2
    ∧ files w2 !! properties_file (py "/proj") = Some (File true (dumps 4 cfg2)).
Proof.
  intros first second w1 w2.
  apply (persist_twice_overwrites first second Extended Plain None
           configured_project w1 w2).
  - vm_compute. reflexivity.
  - vm_compute. reflexivity.
Defined.




(** ** The preset builder *)

(** C2, evaluated on the code: the constant the preset builder's plain mode
    serializes lists three include entries, the wildcard and the two extra
    ones, not the wildcard alone; it is the same value as the extended
    constant, and the file the plain mode writes holds that value. *)
Theorem preset_plain_has_extra_includes :
  let res := Cpp_config_auto.config_estandar Cpp_config_auto.init
               (Some (py "/proj")) empty_root in
  profile_field "includePath" estandar_1
  = Some (PList [
      PStr wildcard;
      PStr (py "C:/Users/SZ/AppData/Local/Programs/Python/Python312/Lib/site-packages/pybind11/include");
      PStr (py "C:/Users/SZ/AppData/Local/Programs/Python/Python312/include")])
  ∧ profile_field "includePath" estandar_1 ≠ Some (PList [PStr wildcard])
  ∧ estandar_1 = pybind_2
  ∧ res.1 = inr ()
  ∧ files res.2 !! py "/proj/.vscode/c_cpp_properties.json"
    = Some (File true (dumps 4 pybind_2)).
Proof.
  split; [reflexivity |]. split; [discriminate |]. split; [reflexivity |].
  vm_compute. split; reflexivity.
Qed.

(** C9: any two returning invocations of the same preset persistence
    operation, on any instances, directories and file systems, leave the
    serialization of one and the same constant in their output files. *)
Theorem preset_persist_constant
    (m : mode) (self1 self2 : Cpp_config_auto.t)
    (ruta1 ruta2 : option pystr) (w1 w2 w1' w2' : world) :
  persist (Preset self1) m ruta1 w1 = (inr (), w1') →
  persist (Preset self2) m ruta2 w2 = (inr (), w2') →
  files w1' !! properties_file (target ruta1 w1)
  = Some (File true (dumps 4 (preset_constant m)))
  ∧ files w2' !! properties_file (target ruta2 w2)
    = Some (File true (dumps 4 (preset_constant m))).
Proof.
  intros H1 H2.
  apply persist_returns in H1 as (cfg1 & Hrec1 & ->).
  apply persist_returns in H2 as (cfg2 & Hrec2 & ->).
  assert (cfg1 = preset_constant m) as -> by (destruct m; simpl in *; congruence).
  assert (cfg2 = preset_constant m) as -> by (destruct m; simpl in *; congruence).
  simpl. by rewrite !lookup_insert_eq.
Qed.

Lemma preset_persist_constant_witness :
  let w1' := (persist (Preset tt) Plain (Some (py "/a")) empty_root).2 in
  let w2' := (persist (Preset tt) Plain None configured_project).2 in
  files w1' !! properties_file (py "/a") = Some (File true (dumps 4 estandar_1))
  ∧ files w2' !! properties_file (py "/proj") = Some (File true (dumps 4 estandar_1)).
Proof.
  intros w1' w2'.
  apply (preset_persist_constant Plain tt tt (Some (py "/a")) None
           empty_root configured_project w1' w2').
  - vm_compute. reflexivity.
  - vm_compute. reflexivity.
Defined.

(** C10: the two constants of the preset builder are the same value, and
    the preset builder's plain and extended persistence operations behave
    identically: same outcome and same resulting file system for every
    target directory and every initial state. *)
Theorem preset_constants_equal :
  estandar_1 = pybind_2
  ∧ ∀ (self1 self2 : Cpp_config_auto.t) (ruta : option pystr) (w : world),
      Cpp_config_auto.config_estandar self1 ruta w
      = Cpp_config_auto.config_pybind self2 ruta w.
Proof. split; reflexivity. Qed.

(** * Further properties *)

(** ** Validation *)

(** X1: the plain build fails exactly when the compiler path is [None] or
    empty, always with the message that names it, and whatever the two
    auxiliary attributes hold they change neither outcome nor record. *)
Theorem build_estandar_validation (self : Cpp_config.t) :
  ((∃ cfg, Cpp_config._build_config_estandar self = inr cfg)
   ↔ truthy (Cpp_config.ruta_compilador self) = true)
  ∧ (∀ e, Cpp_config._build_config_estandar self = inl e →
          e = ValueError (py "ruta_compilador es requerido"))
  ∧ (∀ aux1 aux2,
       Cpp_config._build_config_estandar
         (Cpp_config.init (Cpp_config.ruta_compilador self) aux1 aux2)
       = Cpp_config._build_config_estandar self).
Proof.
  unfold Cpp_config._build_config_estandar. simpl.
  destruct (truthy (Cpp_config.ruta_compilador self)); simpl.
  - split; [split; eauto |]. split; [intros e He; discriminate | done].
  - split; [split; [intros [cfg Hc]; discriminate | discriminate] |].
    split; [intros e He; by inversion He | done].
Qed.

(** X2: a record returned by either build of the validating builder has a
    non-empty string as compilerPath, and every includePath entry of it is
    a non-empty string: no [None] and no empty path reaches the file. *)
Theorem built_record_paths_nonempty (self : Cpp_config.t) (m : mode) (cfg : pyval) :
  record (Validating self) m = inr cfg →
  (∃ v, profile_field "compilerPath" cfg = Some v ∧ nonempty_str v)
  ∧ (∃ paths, profile_field "includePath" cfg = Some (PList paths)
       ∧ Forall nonempty_str paths).
Proof.
  destruct self as [c a1 a2], m; simpl;
    unfold Cpp_config._build_config_estandar, Cpp_config._build_config_pybind;
    simpl.
  - destruct c as [[|x s]|]; simpl; intros Hrec; inversion Hrec; subst.
    split; eexists; (split; [reflexivity |]).
    + by exists x, s.
    + repeat constructor. unfold nonempty_str, wildcard. vm_compute. eauto.
  - destruct c as [[|x s]|]; simpl; try (intros Hrec; discriminate).
    destruct a1 as [[|x1 s1]|]; simpl; try (intros Hrec; discriminate).
    destruct a2 as [[|x2 s2]|]; simpl; intros Hrec; inversion Hrec; subst.
    split; eexists; (split; [reflexivity |]).
    + by exists x, s.
    + repeat constructor; unfold nonempty_str; [vm_compute |..]; eauto.
Qed.

Lemma built_record_paths_nonempty_witness :
  (∃ v, profile_field "compilerPath" pybind_2 = Some v ∧ nonempty_str v)
  ∧ (∃ paths, profile_field "includePath" pybind_2 = Some (PList paths)
       ∧ Forall nonempty_str paths).
Proof.
  apply (built_record_paths_nonempty predefined Extended). reflexivity.
Defined.

Lemma build_estandar_validation_witness :
  truthy (Some (py "/cl.exe")) = true
  ∧ ∃ cfg, Cpp_config._build_config_estandar
             (Cpp_config.init (Some (py "/cl.exe")) None None) = inr cfg.
Proof.
  split; [reflexivity |].
  apply (build_estandar_validation
           (Cpp_config.init (Some (py "/cl.exe")) None None)).
  reflexivity.
Defined.

Lemma ascii_of_N_of_ascii_list (l : list ascii) :
  List.map ascii_of_N (List.map N_of_ascii l) = l.
Proof.
  induction l as [|a l IH]; simpl; [done |].
  by rewrite ascii_N_embedding, IH.
Qed.

Lemma py_inj (k1 k2 : string) : py k1 = py k2 → k1 = k2.
Proof.
  unfold py. intros H.
  apply (f_equal (List.map ascii_of_N)) in H.
  rewrite !ascii_of_N_of_ascii_list in H.
  rewrite <- (string_of_list_ascii_of_string k1),
          <- (string_of_list_ascii_of_string k2).
  by rewrite H.
Qed.

Lemma profile_field_single (k : string) (entries : list (pystr * pyval))
    (rest : list (pystr * pyval)) :
  profile_field k (PDict ((py "configurations", PList [PDict entries]) :: rest))
  = assoc_get (py k) entries.
Proof.
  unfold profile_field, getitem. cbn [assoc_get].
  by rewrite decide_True by reflexivity.
Qed.

(** X3: whenever the extended build returns, the plain build of the same
    builder returns too, and the extended record is the plain one with the
    pybind11 and Python attributes appended, in that order, to includePath:
    every other field of the profile and the version are the same. *)
Theorem build_pybind_extends_estandar (self : Cpp_config.t) (cfg2 : pyval) :
  Cpp_config._build_config_pybind self = inr cfg2 →
  ∃ cfg1 paths,
    Cpp_config._build_config_estandar self = inr cfg1
    ∧ profile_field "includePath" cfg1 = Some (PList paths)
    ∧ profile_field "includePath" cfg2
      = Some (PList (paths ++ [Cpp_config.attr (Cpp_config.pybind11_dll self);
                               Cpp_config.attr (Cpp_config.python_dll self)]))
    ∧ (∀ k, k ≠ "includePath"%string →
            profile_field k cfg2 = profile_field k cfg1)
    ∧ getitem "version" cfg2 = getitem "version" cfg1.
Proof.
  unfold Cpp_config._build_config_pybind, Cpp_config._build_config_estandar.
  destruct (truthy (Cpp_config.ruta_compilador self)); cbn [negb]; [| discriminate].
  destruct (truthy (Cpp_config.python_dll self)); cbn [negb]; [| discriminate].
  destruct (truthy (Cpp_config.pybind11_dll self)); cbn [negb]; [| discriminate].
  intros Hrec. inversion Hrec; subst. clear Hrec.
  eexists _, _. split; [reflexivity |].
  split; [reflexivity |]. split; [reflexivity |]. split; [| reflexivity].
  intros k Hk. rewrite !profile_field_single. cbn [assoc_get].
  destruct (decide (py k = py "name")); [done |].
  destruct (decide (py k = py "includePath")) as [Heq |]; [| done].
  by apply py_inj in Heq.
Qed.

Lemma build_pybind_extends_estandar_witness :
  ∃ cfg1 paths,
    Cpp_config._build_config_estandar predefined = inr cfg1
    ∧ profile_field "includePath" cfg1 = Some (PList paths)
    ∧ profile_field "includePath" pybind_2
      = Some (PList (paths ++ [Cpp_config.attr (Cpp_config.pybind11_dll predefined);
                               Cpp_config.attr (Cpp_config.python_dll predefined)]))
    ∧ (∀ k, k ≠ "includePath"%string →
            profile_field k pybind_2 = profile_field k cfg1)
    ∧ getitem "version" pybind_2 = getitem "version" cfg1.
Proof.
  apply (build_pybind_extends_estandar predefined pybind_2). reflexivity.
Defined.

(** ** The preset builder and the predefined paths *)

(** X4: the extended mode of the preset builder is the extended mode of
    the validating builder set up with the three predefined paths: the
    record is the same, and for every target directory and every file
    system the two calls have the same outcome and the same effect. *)
Theorem preset_pybind_is_predefined
    (self : Cpp_config_auto.t) (ruta : option pystr) (w : world) :
  Cpp_config._build_config_pybind predefined = inr pybind_2
  ∧ Cpp_config_auto.config_pybind self ruta w
    = Cpp_config.config_pybind predefined ruta w.
Proof. split; reflexivity. Qed.

(** X5: when the subdirectory already exists, the preset builder raises
    no validation error: whatever a preset persistence call then raises is
    an [OSError] from opening the file. *)
Theorem preset_raises_only_os_errors
    (self : Cpp_config_auto.t) (m : mode) (ruta : option pystr) (w : world)
    (e : exn) :
  files w !! vscode_dir (target ruta w) = Some Dir →
  (persist (Preset self) m ruta w).1 = inl e →
  ∃ o, e = OSError o.
Proof.
  intros Hdir. rewrite persist_shape. intros Hres.
  destruct (persist_with_cases (record (Preset self) m) ruta w)
    as [[o Ho] | [Hd Hp]].
  - exists o. congruence.
  - rewrite persist_with_ready in Hres by done.
    destruct m; discriminate.
Qed.

Lemma preset_raises_only_os_errors_witness :
  ∃ o, OSError PermissionError = OSError o.
Proof.
  apply (preset_raises_only_os_errors tt Plain None readonly_project).
  - vm_compute. reflexivity.
  - vm_compute. reflexivity.
Defined.

(** ** When a call returns *)

(** X7: a persistence call that returned had a record to write, found the
    subdirectory path free or naming a directory, and found the output path
    free or naming a writable file: it returns in no other case. *)
Theorem persist_returns_only_if
    (b : builder) (m : mode) (ruta : option pystr) (w w' : world) :
  persist b m ruta w = (inr (), w') →
  (∃ cfg, record b m = inr cfg)
  ∧ dir_ready (files w) (vscode_dir (target ruta w))
  ∧ file_ready (files w) (properties_file (target ruta w)).
Proof.
  intros Hrun.
  pose proof (persist_returns _ _ _ _ _ Hrun) as (cfg & Hrec & _).
  split; [eauto |].
  rewrite persist_shape in Hrun.
  destruct (persist_with_cases (record b m) ruta w) as [[o Ho] | Hready];
    [| done].
  rewrite Hrun in Ho. discriminate.
Qed.

Lemma persist_returns_only_if_witness :
  let b := Validating (Cpp_config.init (Some (py "/cl.exe")) None None) in
  (∃ cfg, record b Plain = inr cfg)
  ∧ dir_ready (files configured_project) (vscode_dir (py "/proj"))
  ∧ file_ready (files configured_project) (properties_file (py "/proj")).
Proof.
  intros b.
  apply (persist_returns_only_if b Plain None configured_project
           (persist b Plain None configured_project).2).
  vm_compute. reflexivity.
Defined.

(** X8: repeating a call that returned, on the state it left, returns
    again and changes nothing. *)
Theorem persist_idempotent
    (b : builder) (m : mode) (ruta : option pystr) (w w1 : world) :
  persist b m ruta w = (inr (), w1) →
  persist b m ruta w1 = (inr (), w1).
Proof.
  intros Hrun.
  pose proof (persist_keeps_cwd _ _ _ _ _ Hrun) as Htarget.
  apply persist_returns in Hrun as (cfg & Hrec & ->).
  set (d := vscode_dir (target ruta w)) in *.
  set (p := properties_file (target ruta w)) in *.
  assert (Hne : p ≠ d) by apply not_eq_sym, properties_file_ne_vscode_dir.
  rewrite persist_shape, persist_with_ready, Hrec; rewrite Htarget; simpl.
  - fold d p. f_equal. f_equal.
    rewrite (insert_id _ d Dir).
    + apply insert_insert_eq.
    + rewrite lookup_insert_ne by done. apply lookup_insert_eq.
  - fold d p. right. rewrite lookup_insert_ne by done. apply lookup_insert_eq.
  - fold d p. right. eexists. apply lookup_insert_eq.
Qed.

Lemma persist_idempotent_witness :
  let b := Validating (Cpp_config.init (Some (py "/cl.exe")) None None) in
  let w1 := (persist b Plain None configured_project).2 in
  persist b Plain None w1 = (inr (), w1).
Proof.
  intros b w1.
  apply (persist_idempotent b Plain None configured_project w1).
  vm_compute. reflexivity.
Defined.

(** X9: when the subdirectory path names a regular file, every
    persistence call raises [FileExistsError] and changes nothing, whether
    or not its record could be built. *)
Theorem persist_blocked_by_file
    (b : builder) (m : mode) (ruta : option pystr) (w : world)
    (wr : bool) (content : pystr) :
  files w !! vscode_dir (target ruta w) = Some (File wr content) →
  persist b m ruta w = (inl (OSError FileExistsError), w).
Proof.
  intros Hd. rewrite persist_shape.
  unfold persist_with, mbind, M_bind. rewrite ruta_or_cwd_run.
  unfold makedirs_exist_ok. by rewrite Hd.
Qed.

Lemma persist_blocked_by_file_witness :
  persist (Validating (Cpp_config.init None None None)) Extended None
    blocked_project
  = (inl (OSError FileExistsError), blocked_project).
Proof.
  apply (persist_blocked_by_file _ _ None blocked_project true (py "notes")).
  vm_compute. reflexivity.
Defined.

(** ** A read-only output file *)

(** X11: when the output path names a file that may not be written and the
    subdirectory path is free or names a directory, every persistence call
    raises [PermissionError], whether or not its record could be built,
    and the file keeps its text. *)
Theorem persist_readonly_file_untouched
    (b : builder) (m : mode) (ruta : option pystr) (w : world) (content : pystr) :
  dir_ready (files w) (vscode_dir (target ruta w)) →
  files w !! properties_file (target ruta w) = Some (File false content) →
  (persist b m ruta w).1 = inl (OSError PermissionError)
  ∧ files (persist b m ruta w).2 !! properties_file (target ruta w)
    = Some (File false content).
Proof.
  intros Hd Hp. rewrite persist_shape.
  unfold persist_with, mbind, M_bind. rewrite ruta_or_cwd_run.
  set (r := target ruta w) in *.
  pose proof (properties_file_ne_vscode_dir r) as Hne.
  unfold makedirs_exist_ok, with_open_w, mbind, M_bind, open_w.
  destruct Hd as [Hd | Hd]; rewrite Hd; simpl.
  - rewrite lookup_insert_ne, Hp by done. simpl.
    by rewrite lookup_insert_ne.
  - by rewrite Hp.
Qed.

Lemma persist_readonly_file_untouched_witness :
  let res := persist (Preset tt) Plain None readonly_project in
  res.1 = inl (OSError PermissionError)
  ∧ files res.2 !! properties_file (py "/proj") = Some (File false (py "{}")).
Proof.
  apply (persist_readonly_file_untouched (Preset tt) Plain None readonly_project
           (py "{}")).
  - right. vm_compute. reflexivity.
  - vm_compute. reflexivity.
Defined.

(** ** The text of the output file *)

Lemma pyval_nested_ind (P : pyval → Prop) :
  P PNone →
  (∀ s, P (PStr s)) →
  (∀ z, P (PInt z)) →
  (∀ items, Forall P items → P (PList items)) →
  (∀ entries, Forall (λ kv, P kv.2) entries → P (PDict entries)) →
  ∀ v, P v.
Proof.
  intros HN HS HI HL HD. fix IH 1.
  intros [| s | z | items | entries]; [done | done | done | |].
  - apply HL. induction items as [|x items IHitems]; constructor;
      [apply IH | exact IHitems].
  - apply HD. induction entries as [|[k x] entries IHentries]; constructor;
      [apply IH | exact IHentries].
Qed.

Lemma ascii_text_app (s t : pystr) :
  ascii_text (s ++ t) = ascii_text s && ascii_text t.
Proof. apply forallb_app. Qed.

Lemma hexdigit_plain (d : N) : (d < 16)%N → plain_ascii (hexdigit d) = true.
Proof.
  intros Hd. unfold plain_ascii, hexdigit.
  destruct (N.ltb_spec d 10).
  - replace (48 + d =? 10)%N with false by (symmetry; apply N.eqb_neq; lia).
    apply andb_true_iff. split; apply N.leb_le; lia.
  - replace (87 + d =? 10)%N with false by (symmetry; apply N.eqb_neq; lia).
    apply andb_true_iff. split; apply N.leb_le; lia.
Qed.

Lemma u_escape_plain (n : N) : ascii_text (u_escape n) = true.
Proof.
  unfold u_escape, ascii_text. cbn [forallb].
  rewrite !hexdigit_plain by (apply N.mod_lt; discriminate).
  reflexivity.
Qed.

Lemma escape_char_plain (c : N) : ascii_text (escape_char c) = true.
Proof.
  unfold escape_char.
  repeat (case_match; [reflexivity |]).
  case_match.
  - unfold ascii_text, plain_ascii. cbn [forallb].
    match goal with H : (_ && _) = true |- _ => rewrite H end.
    by rewrite orb_true_r.
  - case_match; [apply u_escape_plain |].
    by rewrite ascii_text_app, !u_escape_plain.
Qed.

Lemma encode_basestring_ascii_plain (s : pystr) :
  ascii_text (encode_basestring_ascii s) = true.
Proof.
  unfold encode_basestring_ascii. rewrite !ascii_text_app.
  replace (ascii_text (flat_map escape_char s)) with true; [reflexivity |].
  symmetry. induction s as [|c s IH]; [reflexivity |].
  cbn [flat_map]. by rewrite ascii_text_app, escape_char_plain, IH.
Qed.

Lemma string_of_uint_plain (d : Decimal.uint) :
  ascii_text (py (NilEmpty.string_of_uint d)) = true.
Proof. induction d; simpl; try done. Qed.

Lemma nilzero_string_of_uint_plain (d : Decimal.uint) :
  ascii_text (py (NilZero.string_of_uint d)) = true.
Proof.
  unfold NilZero.string_of_uint.
  destruct d; try reflexivity; apply string_of_uint_plain.
Qed.

Lemma int_repr_plain (z : Z) : ascii_text (int_repr z) = true.
Proof.
  unfold int_repr, NilZero.string_of_int.
  destruct (Z.to_int z) as [d | d]; [apply nilzero_string_of_uint_plain |].
  change (ascii_text (45%N :: py (NilZero.string_of_uint d)) = true).
  unfold ascii_text. cbn [forallb].
  change (forallb plain_ascii ?s) with (ascii_text s).
  by rewrite nilzero_string_of_uint_plain.
Qed.

Lemma newline_indent_plain (indent level : nat) :
  ascii_text (newline_indent indent level) = true.
Proof.
  unfold newline_indent, ascii_text. cbn [forallb].
  replace (plain_ascii 10) with true by reflexivity. cbn [andb].
  induction (indent * level)%nat as [|n IH]; [reflexivity |].
  simpl repeat. cbn [forallb]. by rewrite IH.
Qed.

Lemma dumps_at_plain (indent : nat) (v : pyval) :
  ∀ level, ascii_text (dumps_at indent level v) = true.
Proof.
  induction v as [| s | z | items IH | entries IH] using pyval_nested_ind;
    intros level.
  - reflexivity.
  - apply encode_basestring_ascii_plain.
  - apply int_repr_plain.
  - destruct IH as [|x xs Hx Hxs]; [reflexivity |].
    cbn [dumps_at]. rewrite !ascii_text_app, newline_indent_plain, Hx.
    rewrite (newline_indent_plain indent level).
    replace (ascii_text (py "[")) with true by reflexivity.
    replace (ascii_text (py "]")) with true by reflexivity.
    rewrite !andb_true_r. cbn [andb].
    induction Hxs as [|y ys Hy Hys IHys]; [reflexivity |].
    rewrite !ascii_text_app, newline_indent_plain, Hy, IHys. reflexivity.
  - destruct IH as [|[k x] kxs Hx Hxs]; [reflexivity |].
    cbn [dumps_at]. simpl in Hx.
    rewrite !ascii_text_app, newline_indent_plain, Hx,
      encode_basestring_ascii_plain.
    rewrite (newline_indent_plain indent level).
    replace (ascii_text (py "{")) with true by reflexivity.
    replace (ascii_text (py "}")) with true by reflexivity.
    replace (ascii_text (py ": ")) with true by reflexivity.
    rewrite !andb_true_r. cbn [andb].
    induction Hxs as [|[k' y] ys Hy Hys IHys]; [reflexivity |].
    simpl in Hy.
    rewrite !ascii_text_app, newline_indent_plain, Hy, IHys,
      encode_basestring_ascii_plain. reflexivity.
Qed.

(** X12: the text a returning call leaves in the output file consists of
    line breaks and printable ASCII characters only, whatever code points
    the paths of the builder contain. *)
Theorem persist_writes_plain_ascii
    (b : builder) (m : mode) (ruta : option pystr) (w w' : world) :
  persist b m ruta w = (inr (), w') →
  ∃ text,
    files w' !! properties_file (target ruta w) = Some (File true text)
    ∧ ascii_text text = true.
Proof.
  intros Hrun. apply persist_returns in Hrun as (cfg & Hrec & ->).
  exists (dumps 4 cfg). split; [apply lookup_insert_eq |].
  apply dumps_at_plain.
Qed.

Lemma persist_writes_plain_ascii_witness :
  let b := Validating (Cpp_config.init (Some [67; 58; 92; 241; 128512; 34; 9]%N)
                         None None) in
  let w' := (persist b Plain (Some (py "/proj")) empty_root).2 in
  ∃ text,
    files w' !! properties_file (py "/proj") = Some (File true text)
    ∧ ascii_text text = true.
Proof.
  intros b w'.
  apply (persist_writes_plain_ascii b Plain (Some (py "/proj")) empty_root w').
  vm_compute. reflexivity.
Defined.

(** ** Retrying after a validation error *)


